(** * dynexec: the self-relocating launcher of pelf (cmd/dynexec/C/dynexec.c)

    A shallow embedding of the launcher and the proofs of its specified
    behaviour.  The C program is a straight line of fallible steps: it
    resolves its own location, derives [shared/bin] and [shared/lib], scans
    the library directory for a dynamic linker, chooses the target from the
    invocation name, fills the argument array and calls [execve].

    C strings are [string]s; [argv] and [environ] are lists of strings; the
    array [exec_args] is a list of cells updated by index; the operating
    system (file system, [execve], [strerror]) is a record of functions the
    program is run against; what the program does to the outside is a list
    of events followed by the way it terminates. *)

From Stdlib Require Import ZArith Ascii String.
From stdpp Require Import base tactics option list strings.

Local Open Scope stdpp_scope.

(** ** C strings *)

Module CString.

Definition strlen (s : string) : nat := String.length s.

(** [snprintf(buf, size, ...)] stores at most [size - 1] characters of the
    formatted text (and the terminating NUL): [snprintf size text] is what
    [buf] holds afterwards. *)
Definition snprintf (size : nat) (text : string) : string :=
  String.substring 0 (size - 1) text.

(** [strrchr(s, c)]: the suffix of [s] that starts at the last occurrence
    of [c], [None] for the NULL pointer. *)
Fixpoint strrchr (s : string) (c : ascii) : option string :=
  match s with
  | EmptyString => None
  | String a s' =>
      match strrchr s' c with
      | Some r => Some r
      | None => if Ascii.eqb a c then Some s else None
      end
  end.

(** [strcmp(a, b) == 0] *)
Definition streq (a b : string) : bool := String.eqb a b.

Fixpoint drop_while (p : ascii -> bool) (l : list ascii) : list ascii :=
  match l with
  | [] => []
  | c :: l' => if p c then drop_while p l' else l
  end.

Definition is_slash (c : ascii) : bool := Ascii.eqb c "/"%char.

(** [dirname(3)] of libgen.h, as POSIX describes it and the C libraries
    implement it: scanning from the end of the path, skip the trailing
    slashes, skip the last component, skip the slashes in front of it. *)
Definition dirname (path : string) : string :=
  match path with
  | EmptyString => "."
  | _ =>
      match drop_while is_slash (rev (list_ascii_of_string path)) with
      | [] => "/"
      | r1 =>
          match drop_while (fun c => negb (is_slash c)) r1 with
          | [] => "."
          | r2 =>
              match drop_while is_slash r2 with
              | [] => "/"
              | r3 => string_of_list_ascii (rev r3)
              end
          end
      end
  end.

End CString.

(** ** POSIX basic regular expressions: the fragment the launcher uses *)

Module Regex.

Inductive atom : Type :=
| AnyChar                 (* .  *)
| Lit (c : ascii).        (* an ordinary or a backslash-escaped character *)

Inductive piece : Type :=
| Once (a : atom)         (* a  *)
| Many (a : atom).        (* a* *)

Record regex_t : Type := mk_regex
  { re_bol : bool;                (* the expression starts with ^ *)
    re_pieces : list piece }.

Inductive token : Type :=
| TAtom (a : atom)
| TStar.

Definition is_special (c : ascii) : bool :=
  match c with
  | "." | "*" | "[" | "\" | "^" | "$" => true
  | _ => false
  end%char.

(** Lexing: a backslash in front of a special character makes it an
    ordinary one; bracket expressions, the end anchor, groups, intervals
    and back-references are outside the fragment ([None]). *)
Fixpoint lex (escaped : bool) (s : string) : option (list token) :=
  match s with
  | EmptyString => if escaped then None else Some []
  | String c s' =>
      if escaped then
        if is_special c then cons (TAtom (Lit c)) <$> lex false s' else None
      else
        match c with
        | "\" => lex true s'
        | "." => cons (TAtom AnyChar) <$> lex false s'
        | "*" => cons TStar <$> lex false s'
        | "[" | "$" => None
        | _ => cons (TAtom (Lit c)) <$> lex false s'
        end%char
  end.

Fixpoint parse (ts : list token) : option (list piece) :=
  match ts with
  | [] => Some []
  | TStar :: _ => None
  | TAtom a :: ts' =>
      match ts' with
      | TStar :: ts'' => cons (Many a) <$> parse ts''
      | _ => cons (Once a) <$> parse ts'
      end
  end.

(** [regcomp(&regex, pattern, 0)]: [None] is a non-zero return value. *)
Definition regcomp (pattern : string) : option regex_t :=
  match pattern with
  | String "^"%char rest => mk_regex true <$> (lex false rest ≫= parse)
  | _ => mk_regex false <$> (lex false pattern ≫= parse)
  end.

Definition atom_ok (a : atom) (c : ascii) : bool :=
  match a with
  | AnyChar => true
  | Lit c' => Ascii.eqb c c'
  end.

(** Does a prefix of [s] match the pieces? *)
Fixpoint match_here (ps : list piece) (s : string) : bool :=
  match ps with
  | [] => true
  | Once a :: ps' =>
      match s with
      | EmptyString => false
      | String c s' => atom_ok a c && match_here ps' s'
      end
  | Many a :: ps' =>
      (fix star (s : string) : bool :=
         match_here ps' s ||
         match s with
         | EmptyString => false
         | String c s' => atom_ok a c && star s'
         end) s
  end.

Fixpoint match_from (ps : list piece) (s : string) : bool :=
  match_here ps s ||
  match s with
  | EmptyString => false
  | String _ s' => match_from ps s'
  end.

(** [regexec(&regex, s, 0, NULL, 0) == 0]: some substring of [s] matches,
    one that starts at the beginning of [s] when the expression is
    anchored. *)
Definition regexec (r : regex_t) (s : string) : bool :=
  if re_bol r then match_here (re_pieces r) s
  else match_from (re_pieces r) s.

End Regex.

(** ** The operating system and the effects of the program *)

Module Launcher.
Import CString Regex.

Definition errno : Type := nat.

(** The result of a system or library call that sets [errno] on failure. *)
Inductive sysret (A : Type) : Type :=
| Fail (e : errno)
| Done (a : A).
Global Arguments Fail {A} e.
Global Arguments Done {A} a.

(** [st_mode & S_IFMT], as far as the program looks at it. *)
Inductive file_type : Type := S_IFREG | S_IFDIR | S_IFOTHER.

Definition S_ISREG (t : file_type) : bool :=
  match t with S_IFREG => true | _ => false end.

(** A slot of a [char*] array. *)
Inductive cell : Type :=
| Uninit                  (* never written *)
| Null                    (* NULL *)
| Ptr (s : string).

Record os : Type := mk_os
  { realpath : string -> sysret string;
    stat : string -> sysret file_type;
    (* opendir followed by readdir until it returns NULL: the d_name
       fields in the order of enumeration *)
    opendir : string -> sysret (list string);
    (* execve returns only when it fails *)
    execve : string -> list cell -> list string -> option errno;
    strerror : errno -> string }.

Inductive event : Type :=
| Stderr (text : string)
| Execve (path : string) (argv : list cell) (envp : list string).

Inductive termination : Type :=
| Exit (status : Z)       (* exit(status), or main returning status *)
| Replaced                (* execve succeeded *)
| Undefined.              (* a NULL pointer was dereferenced *)

(** A computation writes events and then either stops the process or goes
    on with a value. *)
Definition prog (A : Type) : Type := (list event * (termination + A))%type.

Global Instance prog_ret : MRet prog := fun A a => ([], inr a).
Global Instance prog_bind : MBind prog := fun A B f m =>
  match m with
  | (t, inl stop) => (t, inl stop)
  | (t, inr a) => let '(t', r) := f a in (t ++ t', r)
  end.

Definition stop {A : Type} (how : termination) : prog A := ([], inl how).
Definition exit {A : Type} (status : Z) : prog A := stop (Exit status).
Definition fprintf_stderr (text : string) : prog unit := ([Stderr text], inr tt).

(** Reading through a pointer that may be NULL. *)
Definition deref (p : option string) : prog string :=
  match p with
  | Some s => mret s
  | None => stop Undefined
  end.

Definition run (m : prog Z) : list event * termination :=
  match m with
  | (t, inl how) => (t, how)
  | (t, inr status) => (t, Exit status)
  end.

Definition nl : string := String "010"%char EmptyString.
Definition DYNEXE_NAME : string := "dynexe".
Definition EXIT_FAILURE : Z := 1.
Definition LINKER_PATTERN : string := "^ld-.*-.*\.so\..*".

Definition custom_basename (path : string) : string :=
  match strrchr path "/"%char with
  | Some (String _ base) => base
  | _ => path
  end.

Section Program.
Variable sys : os.

Definition perror (s : string) (e : errno) : prog unit :=
  fprintf_stderr (s +:+ ": " +:+ strerror sys e +:+ nl).

Definition realpath_alloc (path : string) : prog string :=
  match realpath sys path with
  | Fail e => perror "realpath" e ;; exit EXIT_FAILURE
  | Done resolved_path => mret resolved_path
  end.

Definition is_file (path : string) : bool :=
  match stat sys path with
  | Fail _ => false
  | Done st_mode => S_ISREG st_mode
  end.

(** The [while ((entry = readdir(dp)))] loop. *)
Fixpoint readdir_loop (regex : regex_t) (shared_lib : string)
    (entries : list string) : option string :=
  match entries with
  | [] => None
  | d_name :: rest =>
      let path := snprintf 1024 (shared_lib +:+ "/" +:+ d_name) in
      if match stat sys path with
         | Done st_mode => S_ISREG st_mode
         | Fail _ => false
         end && regexec regex d_name
      then Some (snprintf 256 d_name)
      else readdir_loop regex shared_lib rest
  end.

Definition match_linker_name (shared_lib : string) : prog (option string) :=
  match regcomp LINKER_PATTERN with
  | None => fprintf_stderr ("Could not compile regex" +:+ nl) ;; exit EXIT_FAILURE
  | Some regex =>
      match opendir sys shared_lib with
      | Fail e => perror "opendir" e ;; exit EXIT_FAILURE
      | Done entries => mret (readdir_loop regex shared_lib entries)
      end
  end.

(** [main], lines 77-88: where the launcher is installed. *)
Definition install_root : prog string :=
  dynexe ← realpath_alloc "/proc/self/exe";
  let dynexe_dir := dirname dynexe in
  let lower_dir := snprintf 512 (dynexe_dir +:+ "/../") in
  if streq (custom_basename dynexe_dir) "bin" && is_file lower_dir
  then realpath_alloc lower_dir
  else mret dynexe_dir.

(** [main], lines 90-94. *)
Definition shared_bin_of (dynexe_dir : string) : string :=
  snprintf (strlen dynexe_dir + 12) (dynexe_dir +:+ "/shared/bin").
Definition shared_lib_of (dynexe_dir : string) : string :=
  snprintf (strlen dynexe_dir + 12) (dynexe_dir +:+ "/shared/lib").

(** [main], lines 96-105: the binary to run and the argument vector as
    it stands afterwards ([argv++; argc--] drops the first slot). *)
Definition dispatch (shared_bin : string) (argv : list string)
    : prog (string * list string) :=
  argv0 ← deref (argv !! 0);
  let bin_name := custom_basename argv0 in
  '(bin_name, argv) ←
    (if streq bin_name DYNEXE_NAME && (1 <? length argv)
     then selector ← deref (argv !! 1); mret (selector, tail argv)
     else mret (bin_name, argv));
  let bin := snprintf (strlen shared_bin + strlen bin_name + 2)
               (shared_bin +:+ "/" +:+ bin_name) in
  mret (bin, argv).

(** [main], lines 116-125: [char* exec_args[argc + 4]] and its stores. *)
Definition build_exec_args (linker shared_lib bin : string)
    (argv : list string) : list cell :=
  let argc := length argv in
  let exec_args := replicate (argc + 4) Uninit in
  let exec_args := <[0 := Ptr linker]> exec_args in
  let exec_args := <[1 := Ptr "--library-path"]> exec_args in
  let exec_args := <[2 := Ptr shared_lib]> exec_args in
  let exec_args := <[3 := Ptr bin]> exec_args in
  let exec_args :=
    foldl (fun a i => <[3 + i := from_option Ptr Null (argv !! i)]> a)
      exec_args (seq 1 (argc - 1)) in
  <[argc + 3 := Null]> exec_args.

Definition call_execve (path : string) (argv : list cell)
    (envp : list string) : prog errno :=
  ([Execve path argv envp],
   match execve sys path argv envp with
   | None => inl Replaced
   | Some e => inr e
   end).

Definition main (argv : list string) (environ : list string)
    : list event * termination :=
  run (
    dynexe_dir ← install_root;
    let shared_bin := shared_bin_of dynexe_dir in
    let shared_lib := shared_lib_of dynexe_dir in
    '(bin, argv) ← dispatch shared_bin argv;
    linker_name ← match_linker_name shared_lib;
    match linker_name with
    | None =>
        fprintf_stderr ("No valid linker found in " +:+ shared_lib +:+ nl) ;;
        exit EXIT_FAILURE
    | Some linker_name =>
        let linker := snprintf (strlen shared_lib + strlen linker_name + 2)
                        (shared_lib +:+ "/" +:+ linker_name) in
        let exec_args := build_exec_args linker shared_lib bin argv in
        e ← call_execve linker exec_args environ;
        fprintf_stderr ("Failed to execute " +:+ linker +:+ ": "
                        +:+ strerror sys e +:+ nl) ;;
        exit EXIT_FAILURE
    end).

(** What [main] does once the linker is chosen: the call of [execve]
    and, when it returns, the diagnostic and the exit. *)
Definition exec_outcome (linker : string) (exec_args : list cell)
    (environ : list string) : list event * termination :=
  match execve sys linker exec_args environ with
  | None => ([Execve linker exec_args environ], Replaced)
  | Some e =>
      ([Execve linker exec_args environ;
        Stderr ("Failed to execute " +:+ linker +:+ ": "
                +:+ strerror sys e +:+ nl)],
       Exit EXIT_FAILURE)
  end.

End Program.

(** The name test of the Interpreter Locator: [regexec] with the
    expression compiled from the pattern, applied to [d_name]. *)
Definition name_test (d_name : string) : bool :=
  match regcomp LINKER_PATTERN with
  | Some regex => regexec regex d_name
  | None => false
  end.

(** An entry of the library directory that is a regular file and whose
    name passes the test: the interpreter candidates of the
    specification. *)
Definition interpreter_candidate (sys : os) (shared_lib d_name : string) : bool :=
  is_file sys (shared_lib +:+ "/" +:+ d_name) && name_test d_name.

(** The path of the entry fits [char path[1024]] and its name fits
    [char linker_name[256]] (as every [d_name] of a [struct dirent]
    does). *)
Definition fits (shared_lib d_name : string) : Prop :=
  String.length shared_lib + 1 + String.length d_name < 1024 /\
  String.length d_name < 256.

(** A small operating system given by tables, for running the program. *)
Definition ENOENT : errno := 2.
Definition EACCES : errno := 13.

Fixpoint assoc {A : Type} (tbl : list (string * A)) (key : string) : sysret A :=
  match tbl with
  | [] => Fail ENOENT
  | (k, v) :: tbl' => if String.eqb k key then Done v else assoc tbl' key
  end.

Definition table_os (links : list (string * string))
    (files : list (string * file_type))
    (dirs : list (string * list string))
    (noexec : list (string * errno)) : os :=
  {| realpath := assoc links;
     stat := assoc files;
     opendir := assoc dirs;
     execve := fun path _ _ =>
       match assoc noexec path with
       | Done e => Some e
       | Fail _ => None
       end;
     strerror := fun e =>
       if Nat.eqb e ENOENT then "No such file or directory"
       else if Nat.eqb e EACCES then "Permission denied"
       else "Unknown error" |}.

End Launcher.

(** ** The name of the dynamic linker *)

Module LinkerName.
Import Regex Launcher.

(** The expression that [regcomp] builds from the pattern of the
    launcher. *)
Definition linker_regex : regex_t :=
  mk_regex true
    [Once (Lit "l"); Once (Lit "d"); Once (Lit "-"); Many AnyChar;
     Once (Lit "-"); Many AnyChar;
     Once (Lit "."); Once (Lit "s"); Once (Lit "o"); Once (Lit ".");
     Many AnyChar]%char.

(** The name test as the specification words it: [ld-], a run of one or
    more characters other than [.] and [/], [-], another such run,
    [.so.], and a trailing run of characters. *)
Fixpoint token_chars (t : string) : bool :=
  match t with
  | EmptyString => true
  | String c t' =>
      negb (Ascii.eqb c "."%char) && negb (Ascii.eqb c "/"%char) && token_chars t'
  end.

Definition is_token (t : string) : bool :=
  match t with
  | EmptyString => false
  | _ => token_chars t
  end.

Definition spec_linker_name (d_name : string) : Prop :=
  exists t1 t2 t3 : string,
    d_name = "ld-" +:+ t1 +:+ "-" +:+ t2 +:+ ".so." +:+ t3 /\
    is_token t1 = true /\ is_token t2 = true.

(** The shape the compiled expression accepts: the runs may be empty and
    may hold any character. *)
Definition glob_linker_name (d_name : string) : Prop :=
  exists a b c : string, d_name = "ld-" +:+ a +:+ "-" +:+ b +:+ ".so." +:+ c.

End LinkerName.

(** ** Installations to run the launcher in *)

Module Worlds.
Import Launcher.

(** The launcher installed as [/opt/app/dynexe]. *)
Definition opt_app : os :=
  table_os
    [("/proc/self/exe", "/opt/app/dynexe")]
    [("/opt/app/shared/lib/.", S_IFDIR);
     ("/opt/app/shared/lib/..", S_IFDIR);
     ("/opt/app/shared/lib/libc.so.6", S_IFREG);
     ("/opt/app/shared/lib/ld-linux-x86-64.so.2", S_IFREG)]
    [("/opt/app/shared/lib", ["."; ".."; "libc.so.6"; "ld-linux-x86-64.so.2"])]
    [].

(** The launcher installed as [/opt/app/bin/dynexe]; [/opt/app] is a
    directory and holds the [shared] tree. *)
Definition opt_app_bin : os :=
  table_os
    [("/proc/self/exe", "/opt/app/bin/dynexe");
     ("/opt/app/bin/../", "/opt/app")]
    [("/opt/app/bin/../", S_IFDIR);
     ("/opt/app/shared/lib/ld-linux-x86-64.so.2", S_IFREG)]
    [("/opt/app/shared/lib", ["ld-linux-x86-64.so.2"])]
    [].

Fixpoint repeat_string (k : nat) (s : string) : string :=
  match k with
  | 0 => EmptyString
  | S k' => s +:+ repeat_string k' s
  end.

(** An installation root of 1000 characters. *)
Definition deep_root : string := repeat_string 100 "/aaaaaaaaa".
Definition deep_lib : string := deep_root +:+ "/shared/lib".

(** The launcher installed under [deep_root], with one dynamic linker in
    the library directory. *)
Definition deep : os :=
  table_os
    [("/proc/self/exe", deep_root +:+ "/dynexe")]
    [(deep_lib +:+ "/ld-linux-x86-64.so.2", S_IFREG)]
    [(deep_lib, ["ld-linux-x86-64.so.2"])]
    [].

(** An installation root of 1002 characters whose library directory holds
    the regular file [ld-a-b.so] and the directory [ld-a-b.so.x]. *)
Definition deeper_root : string := deep_root +:+ "/b".
Definition deeper_lib : string := deeper_root +:+ "/shared/lib".

Definition deeper : os :=
  table_os
    [("/proc/self/exe", deeper_root +:+ "/dynexe")]
    [(deeper_lib +:+ "/ld-a-b.so", S_IFREG);
     (deeper_lib +:+ "/ld-a-b.so.x", S_IFDIR)]
    [(deeper_lib, ["ld-a-b.so"; "ld-a-b.so.x"])]
    [(deeper_lib +:+ "/ld-a-b.so.x", EACCES)].

End Worlds.

(** * Proofs *)

(** ** Facts about C strings *)

Module CStringFacts.
Import CString.

Lemma str_app_nil_l (s : string) : EmptyString +:+ s = s.
Proof. reflexivity. Qed.

Lemma str_app_cons (c : ascii) (s t : string) :
  String c s +:+ t = String c (s +:+ t).
Proof. reflexivity. Qed.

Lemma str_app_nil_r (s : string) : s +:+ EmptyString = s.
Proof. induction s as [|c s IH]; [reflexivity|]. rewrite str_app_cons, IH. reflexivity. Qed.

Lemma str_app_assoc (a b c : string) : (a +:+ b) +:+ c = a +:+ (b +:+ c).
Proof.
  induction a as [|x a IH]; [reflexivity|].
  rewrite !str_app_cons, IH. reflexivity.
Qed.

Lemma str_length_app (a b : string) :
  String.length (a +:+ b) = String.length a + String.length b.
Proof.
  induction a as [|x a IH]; [reflexivity|].
  rewrite str_app_cons. simpl. rewrite IH. reflexivity.
Qed.

Lemma substring_whole (s : string) (n : nat) :
  String.length s <= n -> String.substring 0 n s = s.
Proof.
  revert n. induction s as [|c s IH]; intros [|n] Hn; simpl in *; try reflexivity; try lia.
  rewrite IH by lia. reflexivity.
Qed.

Lemma substring_prefix (a b : string) :
  String.substring 0 (String.length a) (a +:+ b) = a.
Proof.
  induction a as [|c a IH].
  - rewrite str_app_nil_l. destruct b; reflexivity.
  - rewrite str_app_cons. simpl. rewrite IH. reflexivity.
Qed.

(** The buffer is large enough: nothing is cut. *)
Lemma snprintf_fits (size : nat) (text : string) :
  String.length text < size -> snprintf size text = text.
Proof. intros H. unfold snprintf. apply substring_whole. lia. Qed.

(** The buffers that [main] allocates with [malloc] have the exact size. *)
Lemma snprintf_malloc2 (a b : string) :
  snprintf (strlen a + strlen b + 2) (a +:+ "/" +:+ b) = a +:+ "/" +:+ b.
Proof.
  apply snprintf_fits. unfold strlen. rewrite !str_length_app. simpl. lia.
Qed.

Lemma snprintf_malloc12 (a suffix : string) :
  String.length suffix = 11 ->
  snprintf (strlen a + 12) (a +:+ suffix) = a +:+ suffix.
Proof.
  intros H. apply snprintf_fits. unfold strlen. rewrite str_length_app, H. lia.
Qed.

Lemma streq_true (a b : string) : streq a b = true <-> a = b.
Proof. apply String.eqb_eq. Qed.

Lemma streq_false (a b : string) : streq a b = false <-> a <> b.
Proof. apply String.eqb_neq. Qed.

End CStringFacts.

(** ** What the compiled expression accepts *)

Module RegexFacts.
Import CString CStringFacts Regex Launcher LinkerName.

Lemma match_here_many (a : atom) (ps : list piece) (s : string) :
  match_here (Many a :: ps) s =
    match_here ps s ||
    match s with
    | EmptyString => false
    | String c s' => atom_ok a c && match_here (Many a :: ps) s'
    end.
Proof. destruct s; reflexivity. Qed.

(** An ordinary character consumes exactly itself. *)
Lemma match_here_lit (c : ascii) (ps : list piece) (s : string) :
  match_here (Once (Lit c) :: ps) s = true <->
  exists s', s = String c s' /\ match_here ps s' = true.
Proof.
  split.
  - destruct s as [|x s']; simpl; [discriminate|].
    intros [Hx Hs]%andb_prop. apply Ascii.eqb_eq in Hx. subst x. eauto.
  - intros (s' & -> & Hs). simpl. rewrite Ascii.eqb_refl, Hs. reflexivity.
Qed.

(** [.*] consumes any prefix, the empty one included. *)
Lemma match_here_any_star (ps : list piece) (s : string) :
  match_here (Many AnyChar :: ps) s = true <->
  exists p q, s = p +:+ q /\ match_here ps q = true.
Proof.
  split.
  - induction s as [|c s IH]; rewrite match_here_many; intros H.
    + rewrite orb_false_r in H. exists EmptyString, EmptyString. split; [reflexivity|assumption].
    + apply orb_prop in H as [H|H].
      * exists EmptyString, (String c s). split; [reflexivity|assumption].
      * simpl in H. destruct (IH H) as (p & q & -> & Hq).
        exists (String c p), q. split; [reflexivity|assumption].
  - intros (p & q & -> & Hq). induction p as [|c p IH].
    + rewrite str_app_nil_l, match_here_many, Hq. reflexivity.
    + rewrite str_app_cons, match_here_many, IH. simpl. apply orb_true_r.
Qed.

Lemma regcomp_linker_pattern :
  regcomp Launcher.LINKER_PATTERN = Some linker_regex.
Proof. reflexivity. Qed.

Lemma name_test_regexec (d_name : string) :
  Launcher.name_test d_name = regexec linker_regex d_name.
Proof. reflexivity. Qed.

Lemma name_test_glob (d_name : string) :
  name_test d_name = true <-> glob_linker_name d_name.
Proof.
  rewrite name_test_regexec.
  unfold regexec, glob_linker_name, linker_regex; simpl re_bol; simpl re_pieces.
  split.
  - intros H.
    apply match_here_lit in H as (s1 & -> & H).
    apply match_here_lit in H as (s2 & -> & H).
    apply match_here_lit in H as (s3 & -> & H).
    apply match_here_any_star in H as (a & s4 & -> & H).
    apply match_here_lit in H as (s5 & -> & H).
    apply match_here_any_star in H as (b & s6 & -> & H).
    apply match_here_lit in H as (s7 & -> & H).
    apply match_here_lit in H as (s8 & -> & H).
    apply match_here_lit in H as (s9 & -> & H).
    apply match_here_lit in H as (s10 & -> & H).
    exists a, b, s10. reflexivity.
  - intros (a & b & c & ->).
    do 3 (apply match_here_lit; eexists; split; [reflexivity|]).
    apply match_here_any_star. exists a. eexists. split; [reflexivity|].
    apply match_here_lit; eexists; split; [reflexivity|].
    apply match_here_any_star. exists b. eexists. split; [reflexivity|].
    do 4 (apply match_here_lit; eexists; split; [reflexivity|]).
    apply match_here_any_star. exists c, EmptyString. split; [|reflexivity].
    symmetry. apply str_app_nil_r.
Qed.

(** Every name of the specified shape passes the test of the program. *)
Lemma spec_linker_name_accepted (d_name : string) :
  spec_linker_name d_name -> name_test d_name = true.
Proof.
  intros (t1 & t2 & t3 & -> & _ & _). apply name_test_glob.
  exists t1, t2, t3. reflexivity.
Qed.

End RegexFacts.

(** ** The stages of [main] *)

Module LauncherFacts.
Import CString CStringFacts Regex Launcher LinkerName RegexFacts.

(** *** The argument array *)

Lemma foldl_store_lookup (f : nat -> cell) (k : nat) :
  forall (l : list cell) (s j : nat),
    foldl (fun a i => <[3 + i := f i]> a) l (seq s k) !! j =
      if bool_decide (3 + s <= j < 3 + s + k /\ j < length l)
      then Some (f (j - 3)) else l !! j.
Proof.
  induction k as [|k IH]; intros l s j; simpl.
  - rewrite bool_decide_eq_false_2 by lia. reflexivity.
  - rewrite IH, length_insert.
    destruct (decide (j = 3 + s)) as [->|Hne].
    + rewrite bool_decide_eq_false_2 by lia.
      case_bool_decide as H.
      * rewrite list_lookup_insert_eq by lia. f_equal. f_equal. lia.
      * rewrite list_insert_ge by lia. reflexivity.
    + rewrite list_lookup_insert_ne by lia.
      repeat case_bool_decide; try reflexivity; lia.
Qed.

Lemma foldl_store_length (f : nat -> cell) (k : nat) :
  forall (l : list cell) (s : nat),
    length (foldl (fun a i => <[3 + i := f i]> a) l (seq s k)) = length l.
Proof.
  induction k as [|k IH]; intros l s; simpl; [reflexivity|].
  rewrite IH. apply length_insert.
Qed.

Lemma build_exec_args_eq (linker shared_lib bin argv0 : string) (rest : list string) :
  build_exec_args linker shared_lib bin (argv0 :: rest) =
    [Ptr linker; Ptr "--library-path"; Ptr shared_lib; Ptr bin]
      ++ (Ptr <$> rest) ++ [Null].
Proof.
  unfold build_exec_args.
  change (length (argv0 :: rest)) with (S (length rest)).
  replace (S (length rest) + 4) with (4 + S (length rest)) by lia.
  replace (S (length rest) - 1) with (length rest) by lia.
  set (init := <[3 := Ptr bin]> _).
  set (a4 := Ptr linker :: Ptr "--library-path" :: Ptr shared_lib :: Ptr bin
               :: replicate (S (length rest)) Uninit).
  assert (init = a4) as -> by reflexivity.
  assert (Ha4 : length a4 = length rest + 5).
  { unfold a4. simpl. rewrite length_replicate. lia. }
  apply list_eq. intros j.
  destruct (decide (j = S (length rest) + 3)) as [->|Hj].
  - rewrite list_lookup_insert_eq by (rewrite foldl_store_length; lia).
    replace (S (length rest) + 3) with (4 + length rest) by lia.
    change (([Ptr linker; Ptr "--library-path"; Ptr shared_lib; Ptr bin]
               ++ (Ptr <$> rest) ++ [Null]) !! (4 + length rest))
      with (((Ptr <$> rest) ++ [Null]) !! length rest).
    rewrite lookup_app_r by (rewrite length_fmap; lia).
    rewrite length_fmap, Nat.sub_diag. reflexivity.
  - rewrite list_lookup_insert_ne by lia.
    rewrite foldl_store_lookup, Ha4.
    destruct j as [|[|[|[|j]]]]; try reflexivity.
    change (([Ptr linker; Ptr "--library-path"; Ptr shared_lib; Ptr bin]
               ++ (Ptr <$> rest) ++ [Null]) !! S (S (S (S j))))
      with (((Ptr <$> rest) ++ [Null]) !! j).
    case_bool_decide as Hin.
    + replace (S (S (S (S j))) - 3) with (S j) by lia.
      change ((argv0 :: rest) !! S j) with (rest !! j).
      rewrite lookup_app_l by (rewrite length_fmap; lia).
      rewrite list_lookup_fmap.
      destruct (rest !! j) eqn:E; [reflexivity|].
      apply lookup_ge_None in E. lia.
    + change (a4 !! S (S (S (S j)))) with (replicate (S (length rest)) Uninit !! j).
      rewrite !lookup_ge_None_2; [reflexivity| |].
      * rewrite length_app, length_fmap. simpl. lia.
      * rewrite length_replicate. lia.
Qed.

(** *** The monad *)

Lemma bind_ret {A B : Type} (a : A) (f : A -> prog B) :
  (([], inr a) : prog A) ≫= f = f a.
Proof. unfold mbind, prog_bind. destruct (f a). reflexivity. Qed.

Lemma bind_stop {A B : Type} (t : list event) (how : termination) (f : A -> prog B) :
  ((t, inl how) : prog A) ≫= f = (t, inl how).
Proof. reflexivity. Qed.


Ltac step H := rewrite H; rewrite ?bind_ret, ?bind_stop; cbv beta iota zeta.

(** *** Self-location, layout, dispatch, linker search *)

Section Stages.
Variable sys : os.

Lemma shared_bin_of_eq (root : string) : shared_bin_of root = root +:+ "/shared/bin".
Proof. apply snprintf_malloc12. reflexivity. Qed.

Lemma shared_lib_of_eq (root : string) : shared_lib_of root = root +:+ "/shared/lib".
Proof. apply snprintf_malloc12. reflexivity. Qed.

Lemma realpath_alloc_cases (path : string) :
  (exists p, realpath sys path = Done p /\ realpath_alloc sys path = ([], inr p)) \/
  (exists msg, realpath_alloc sys path = ([Stderr msg], inl (Exit EXIT_FAILURE))).
Proof.
  unfold realpath_alloc. destruct (realpath sys path) as [e|p].
  - right. eexists. reflexivity.
  - left. eauto.
Qed.

Lemma install_root_cases :
  (exists root, install_root sys = ([], inr root)) \/
  (exists msg, install_root sys = ([Stderr msg], inl (Exit EXIT_FAILURE))).
Proof.
  unfold install_root.
  destruct (realpath_alloc_cases "/proc/self/exe") as [(exe & _ & ->)|(msg & ->)].
  - cbn. 
    match goal with |- context [if ?b then _ else _] => destruct b end.
    + destruct (realpath_alloc_cases (snprintf 512 (dirname exe +:+ "/../"))) as [(p & _ & ->)|(msg & ->)]. 
      * left. eauto.
      * right. eauto.
    + left. eauto.
  - right. eauto.
Qed.

(** When the test on the parent fails the root is the directory of the executable. *)
Lemma install_root_stays (exe : string) :
  realpath sys "/proc/self/exe" = Done exe ->
  is_file sys (snprintf 512 (dirname exe +:+ "/../")) = false ->
  install_root sys = ([], inr (dirname exe)).
Proof.
  intros Hexe Hfile. unfold install_root, realpath_alloc. rewrite Hexe. cbn.
  rewrite Hfile, andb_false_r. reflexivity.
Qed.

Lemma is_file_directory (path : string) :
  stat sys path = Done S_IFDIR -> is_file sys path = false.
Proof. intros H. unfold is_file. rewrite H. reflexivity. Qed.

Lemma install_root_parent_directory (exe : string) :
  realpath sys "/proc/self/exe" = Done exe ->
  String.length (dirname exe) + 4 < 512 ->
  stat sys (dirname exe +:+ "/../") = Done S_IFDIR ->
  install_root sys = ([], inr (dirname exe)).
Proof.
  intros Hexe Hlen Hdir. apply install_root_stays; [assumption|].
  rewrite snprintf_fits by (rewrite str_length_app; simpl; lia).
  apply is_file_directory, Hdir.
Qed.

Lemma dispatch_selector (shared_bin argv0 x : string) (rest : list string) :
  custom_basename argv0 = DYNEXE_NAME ->
  dispatch shared_bin (argv0 :: x :: rest) =
    ([], inr (shared_bin +:+ "/" +:+ x, x :: rest)).
Proof.
  intros H. unfold dispatch. cbn. rewrite H. cbn.
  rewrite snprintf_malloc2. reflexivity.
Qed.

Lemma dispatch_alone (shared_bin argv0 : string) :
  custom_basename argv0 = DYNEXE_NAME ->
  dispatch shared_bin [argv0] =
    ([], inr (shared_bin +:+ "/" +:+ DYNEXE_NAME, [argv0])).
Proof.
  intros H. unfold dispatch. cbn. rewrite H. cbn.
  change 6 with (strlen DYNEXE_NAME).
  rewrite snprintf_malloc2. reflexivity.
Qed.

Lemma dispatch_rename (shared_bin argv0 : string) (rest : list string) :
  custom_basename argv0 <> DYNEXE_NAME ->
  dispatch shared_bin (argv0 :: rest) =
    ([], inr (shared_bin +:+ "/" +:+ custom_basename argv0, argv0 :: rest)).
Proof.
  intros H. apply streq_false in H. unfold dispatch. cbn. rewrite H. cbn.
  rewrite snprintf_malloc2. reflexivity.
Qed.

Lemma dispatch_cases (shared_bin : string) (argv : list string) :
  (argv = [] /\ dispatch shared_bin argv = ([], inl Undefined)) \/
  (exists bin_name argv0 rest, 
      dispatch shared_bin argv = ([], inr (shared_bin +:+ "/" +:+ bin_name, argv0 :: rest))).
Proof.
  destruct argv as [|argv0 rest]; [left; split; reflexivity|right].
  destruct (decide (custom_basename argv0 = DYNEXE_NAME)) as [Heq|Hne].
  - destruct rest as [|x rest].
    + do 3 eexists. apply dispatch_alone, Heq.
    + do 3 eexists. apply dispatch_selector, Heq.
  - do 3 eexists. apply dispatch_rename, Hne.
Qed.

Lemma match_linker_name_eq (shared_lib : string) :
  match_linker_name sys shared_lib =
    match opendir sys shared_lib with
    | Fail e => ([Stderr ("opendir: " +:+ strerror sys e +:+ nl)],
                 inl (Exit EXIT_FAILURE))
    | Done entries => ([], inr (readdir_loop sys linker_regex shared_lib entries))
    end.
Proof.
  unfold match_linker_name. rewrite regcomp_linker_pattern.
  destruct (opendir sys shared_lib); reflexivity.
Qed.

Lemma match_linker_name_cases (shared_lib : string) :
  (exists entries, opendir sys shared_lib = Done entries /\
     match_linker_name sys shared_lib =
       ([], inr (readdir_loop sys linker_regex shared_lib entries))) \/
  (exists msg, match_linker_name sys shared_lib =
                 ([Stderr msg], inl (Exit EXIT_FAILURE))).
Proof.
  rewrite match_linker_name_eq. destruct (opendir sys shared_lib) as [e|entries].
  - right. eauto.
  - left. eauto.
Qed.

Lemma readdir_loop_step_fits (shared_lib d_name : string) (rest : list string) :
  fits shared_lib d_name ->
  readdir_loop sys linker_regex shared_lib (d_name :: rest) =
    if interpreter_candidate sys shared_lib d_name then Some d_name
    else readdir_loop sys linker_regex shared_lib rest.
Proof.
  intros [Hpath Hname]. simpl.
  rewrite (snprintf_fits 1024) by (rewrite !str_length_app; simpl; lia).
  rewrite (snprintf_fits 256) by assumption.
  reflexivity.
Qed.

Lemma readdir_loop_first (shared_lib : string) (entries : list string) :
  Forall (fits shared_lib) entries ->
  readdir_loop sys linker_regex shared_lib entries =
    head (List.filter (interpreter_candidate sys shared_lib) entries).
Proof.
  induction 1 as [|d rest Hd _ IH]; [reflexivity|].
  rewrite readdir_loop_step_fits by assumption. simpl.
  destruct (interpreter_candidate sys shared_lib d); [reflexivity|apply IH].
Qed.

Lemma readdir_loop_none (shared_lib : string) (entries : list string) :
  Forall (fits shared_lib) entries ->
  Forall (fun d => interpreter_candidate sys shared_lib d = false) entries ->
  readdir_loop sys linker_regex shared_lib entries = None.
Proof.
  intros Hfit Hnone. rewrite readdir_loop_first by assumption.
  induction Hnone as [|d rest Hd _ IH]; [reflexivity|].
  simpl. rewrite Hd. apply IH. inversion Hfit; assumption.
Qed.

Lemma main_exec (argv environ : list string) (root bin linker_name : string)
    (argv' : list string) :
  install_root sys = ([], inr root) ->
  dispatch (shared_bin_of root) argv = ([], inr (bin, argv')) ->
  match_linker_name sys (shared_lib_of root) = ([], inr (Some linker_name)) ->
  main sys argv environ =
    let linker := shared_lib_of root +:+ "/" +:+ linker_name in
    exec_outcome sys linker (build_exec_args linker (shared_lib_of root) bin argv') environ.
Proof.
  intros Hroot Hbin Hlinker. unfold main.
  step Hroot. step Hbin. step Hlinker.
  rewrite snprintf_malloc2. unfold exec_outcome, call_execve.
  destruct (execve sys _ _ _); reflexivity.
Qed.

Lemma main_no_linker (argv environ : list string) (root bin : string)
    (argv' : list string) :
  install_root sys = ([], inr root) ->
  dispatch (shared_bin_of root) argv = ([], inr (bin, argv')) ->
  match_linker_name sys (shared_lib_of root) = ([], inr None) ->
  main sys argv environ =
    ([Stderr ("No valid linker found in " +:+ shared_lib_of root +:+ nl)],
     Exit EXIT_FAILURE).
Proof.
  intros Hroot Hbin Hlinker. unfold main.
  step Hroot. step Hbin. step Hlinker. reflexivity.
Qed.

(** Every call of [execve] that [main] makes comes out of the three stages. *)
Lemma main_exec_inv (argv environ : list string) (path : string)
    (args : list cell) (envp : list string) :
  In (Execve path args envp) (fst (main sys argv environ)) ->
  exists root bin_name argv0 rest linker_name,
    install_root sys = ([], inr root) /\
    dispatch (shared_bin_of root) argv =
      ([], inr (shared_bin_of root +:+ "/" +:+ bin_name, argv0 :: rest)) /\
    match_linker_name sys (shared_lib_of root) = ([], inr (Some linker_name)) /\
    path = shared_lib_of root +:+ "/" +:+ linker_name /\
    args = build_exec_args path (shared_lib_of root)
             (shared_bin_of root +:+ "/" +:+ bin_name) (argv0 :: rest) /\
    envp = environ.
Proof.
  intros Hin.
  destruct install_root_cases as [(root & Hroot)|(msg & Hroot)].
  2:{ unfold main in Hin. rewrite Hroot, bind_stop in Hin.
      destruct Hin as [Hin|[]]; discriminate. }
  destruct (dispatch_cases (shared_bin_of root) argv)
    as [(-> & Hbin)|(bin_name & argv0 & rest & Hbin)].
  { unfold main in Hin. rewrite Hroot, bind_ret in Hin. cbv beta zeta in Hin.
    rewrite Hbin, bind_stop in Hin. destruct Hin. }
  destruct (match_linker_name_cases (shared_lib_of root))
    as [(entries & _ & Hlinker)|(msg & Hlinker)].
  2:{ unfold main in Hin. rewrite Hroot, bind_ret in Hin. cbv beta zeta in Hin.
      rewrite Hbin, bind_ret in Hin. cbv beta iota zeta in Hin.
      rewrite Hlinker, bind_stop in Hin.
      destruct Hin as [Hin|[]]; discriminate. }
  destruct (readdir_loop sys linker_regex (shared_lib_of root) entries)
    as [linker_name|] eqn:Hloop.
  - rewrite (main_exec _ _ _ _ _ _ Hroot Hbin Hlinker) in Hin.
    cbn zeta in Hin. unfold exec_outcome in Hin.
    exists root, bin_name, argv0, rest, linker_name.
    destruct (execve sys _ _ _); cbn in Hin.
    + destruct Hin as [Hin|[Hin|[]]]; [|discriminate].
      injection Hin as <- <- <-. repeat split; assumption || reflexivity.
    + destruct Hin as [Hin|[]].
      injection Hin as <- <- <-. repeat split; assumption || reflexivity.
  - rewrite (main_no_linker _ _ _ _ _ Hroot Hbin Hlinker) in Hin.
    destruct Hin as [Hin|[]]; discriminate.
Qed.
(** *** The launcher when every path fits its buffer *)

Lemma match_linker_name_first (shared_lib : string) (entries : list string) :
  opendir sys shared_lib = Done entries ->
  Forall (fits shared_lib) entries ->
  match_linker_name sys shared_lib =
    ([], inr (head (List.filter (interpreter_candidate sys shared_lib) entries))).
Proof.
  intros Hdir Hfit. rewrite match_linker_name_eq, Hdir.
  rewrite readdir_loop_first by assumption. reflexivity.
Qed.

Lemma match_linker_name_single (shared_lib d_name : string) (entries : list string) :
  opendir sys shared_lib = Done entries ->
  Forall (fits shared_lib) entries ->
  List.filter (interpreter_candidate sys shared_lib) entries = [d_name] ->
  match_linker_name sys shared_lib = ([], inr (Some d_name)).
Proof.
  intros Hdir Hfit Hone.
  rewrite (match_linker_name_first _ _ Hdir Hfit), Hone. reflexivity.
Qed.

Lemma main_no_candidate (argv0 root : string) (rest environ entries : list string) :
  install_root sys = ([], inr root) ->
  opendir sys (shared_lib_of root) = Done entries ->
  Forall (fits (shared_lib_of root)) entries ->
  Forall (fun d => interpreter_candidate sys (shared_lib_of root) d = false) entries ->
  main sys (argv0 :: rest) environ =
    ([Stderr ("No valid linker found in " +:+ shared_lib_of root +:+ nl)],
     Exit EXIT_FAILURE).
Proof.
  intros Hroot Hdir Hfit Hnone.
  destruct (dispatch_cases (shared_bin_of root) (argv0 :: rest))
    as [[Hnil _]|(bin_name & a & r & Hbin)]; [discriminate|].
  apply (main_no_linker _ _ _ _ _ Hroot Hbin).
  rewrite match_linker_name_eq, Hdir, readdir_loop_none by assumption.
  reflexivity.
Qed.

End Stages.


End LauncherFacts.

(** ** The last path component *)

Module BasenameFacts.
Import CString CStringFacts Launcher.

Lemma strrchr_none_absent (s : string) (c : ascii) :
  strrchr s c = None -> ~ In c (list_ascii_of_string s).
Proof.
  induction s as [|a s IH]; intros H; [intros []|].
  simpl in H. destruct (strrchr s c); [discriminate|].
  destruct (Ascii.eqb a c) eqn:Eb; [discriminate|].
  apply Ascii.eqb_neq in Eb. intros [Hac|Hin]; [congruence|].
  exact (IH eq_refl Hin).
Qed.

Lemma strrchr_absent_none (s : string) (c : ascii) :
  ~ In c (list_ascii_of_string s) -> strrchr s c = None.
Proof.
  induction s as [|a s IH]; intros H; [reflexivity|].
  simpl. rewrite IH by (intros Hin; apply H; right; exact Hin).
  destruct (Ascii.eqb a c) eqn:Eb; [|reflexivity].
  apply Ascii.eqb_eq in Eb. exfalso. apply H. left. exact Eb.
Qed.

(** The pointer that [strrchr] returns starts at the last occurrence. *)
Lemma strrchr_some_last (s r : string) (c : ascii) :
  strrchr s c = Some r ->
  exists p t : string,
    s = p +:+ String c t /\ r = String c t /\ ~ In c (list_ascii_of_string t).
Proof.
  revert r. induction s as [|a s IH]; intros r H; [discriminate|].
  simpl in H. destruct (strrchr s c) as [r'|] eqn:E.
  - injection H as <-. destruct (IH _ eq_refl) as (p & t & -> & -> & Hn).
    exists (String a p), t. repeat split; assumption.
  - destruct (Ascii.eqb a c) eqn:Eb; [|discriminate].
    injection H as <-. apply Ascii.eqb_eq in Eb. subst a.
    exists EmptyString, s. repeat split. apply strrchr_none_absent, E.
Qed.

Lemma strrchr_after_prefix (p t : string) (c : ascii) :
  ~ In c (list_ascii_of_string t) ->
  strrchr (p +:+ String c t) c = Some (String c t).
Proof.
  intros Hn. induction p as [|a p IH].
  - rewrite str_app_nil_l. simpl.
    rewrite (strrchr_absent_none _ _ Hn), Ascii.eqb_refl. reflexivity.
  - rewrite str_app_cons. simpl. rewrite IH. reflexivity.
Qed.

Lemma custom_basename_plain (name : string) :
  ~ In "/"%char (list_ascii_of_string name) -> custom_basename name = name.
Proof.
  intros Hn. unfold custom_basename. rewrite (strrchr_absent_none _ _ Hn).
  reflexivity.
Qed.

Lemma custom_basename_join (dir name : string) :
  ~ In "/"%char (list_ascii_of_string name) ->
  custom_basename (dir +:+ "/" +:+ name) = name.
Proof.
  intros Hn. unfold custom_basename.
  change ("/" +:+ name) with (String "/"%char name).
  rewrite (strrchr_after_prefix _ _ _ Hn). reflexivity.
Qed.

Lemma custom_basename_slash_free (path : string) :
  ~ In "/"%char (list_ascii_of_string (custom_basename path)).
Proof.
  unfold custom_basename. destruct (strrchr path "/"%char) as [r|] eqn:E.
  - destruct (strrchr_some_last _ _ _ E) as (p & t & _ & -> & Hn). exact Hn.
  - apply strrchr_none_absent, E.
Qed.

End BasenameFacts.

(** ** The runs of [main] *)

Module RunFacts.
Import CString CStringFacts Regex Launcher LinkerName RegexFacts LauncherFacts.

Section Runs.
Variable sys : os.

Lemma main_root_fails (argv environ : list string) (t : list event)
    (how : termination) :
  install_root sys = (t, inl how) -> main sys argv environ = (t, how).
Proof. intros H. unfold main. rewrite H, bind_stop. reflexivity. Qed.

Lemma main_no_argv (environ : list string) (root : string) :
  install_root sys = ([], inr root) -> main sys [] environ = ([], Undefined).
Proof. intros H. unfold main. rewrite H, bind_ret. reflexivity. Qed.

Lemma main_search_fails (argv environ : list string) (root bin : string)
    (argv' : list string) (t : list event) (how : termination) :
  install_root sys = ([], inr root) ->
  dispatch (shared_bin_of root) argv = ([], inr (bin, argv')) ->
  match_linker_name sys (shared_lib_of root) = (t, inl how) ->
  main sys argv environ = (t, how).
Proof.
  intros Hroot Hbin Hlinker. unfold main.
  rewrite Hroot, bind_ret. cbv beta zeta.
  rewrite Hbin, bind_ret. cbv beta iota zeta.
  rewrite Hlinker, bind_stop. reflexivity.
Qed.

(** [main] looks at [argv] through [dispatch] only. *)
Lemma main_dispatch_congr (argv1 argv2 environ : list string) :
  (forall shared_bin, dispatch shared_bin argv1 = dispatch shared_bin argv2) ->
  main sys argv1 environ = main sys argv2 environ.
Proof.
  intros H. unfold main.
  destruct (install_root_cases sys) as [(root & ->)|(msg & ->)];
    [|reflexivity].
  rewrite !bind_ret. cbv beta zeta. rewrite H. reflexivity.
Qed.

Lemma install_root_realpath_fails (e : errno) :
  realpath sys "/proc/self/exe" = Fail e ->
  install_root sys =
    ([Stderr ("realpath" +:+ ": " +:+ strerror sys e +:+ nl)],
     inl (Exit EXIT_FAILURE)).
Proof.
  intros H. unfold install_root, realpath_alloc. rewrite H. reflexivity.
Qed.

Lemma install_root_not_bin (exe : string) :
  realpath sys "/proc/self/exe" = Done exe ->
  custom_basename (dirname exe) <> "bin" ->
  install_root sys = ([], inr (dirname exe)).
Proof.
  intros Hexe Hbin. apply streq_false in Hbin.
  unfold install_root, realpath_alloc. rewrite Hexe.
  change (mret exe : prog string) with (([], inr exe) : prog string).
  rewrite (bind_ret exe). cbv beta zeta. rewrite Hbin. reflexivity.
Qed.

Lemma readdir_loop_some (shared_lib linker_name : string) (entries : list string) :
  readdir_loop sys linker_regex shared_lib entries = Some linker_name ->
  exists d_name : string,
    In d_name entries /\
    linker_name = snprintf 256 d_name /\
    name_test d_name = true /\
    stat sys (snprintf 1024 (shared_lib +:+ "/" +:+ d_name)) = Done S_IFREG.
Proof.
  induction entries as [|d rest IH]; intros H; [discriminate|].
  simpl in H.
  destruct (stat sys (snprintf 1024 (shared_lib +:+ "/" +:+ d))) as [e|ty] eqn:Est.
  - destruct (IH H) as (d' & Hin & Hrest). exists d'. split; [right|]; assumption.
  - destruct (S_ISREG ty && regexec linker_regex d) eqn:Etest.
    + apply andb_prop in Etest as [Hreg Hname]. injection H as <-.
      exists d. split; [left; reflexivity|]. split; [reflexivity|].
      split; [exact Hname|]. destruct ty; try discriminate. exact Est.
    + destruct (IH H) as (d' & Hin & Hrest). exists d'. split; [right|]; assumption.
Qed.

End Runs.
End RunFacts.

(** * The claims of the specification *)

Import CString CStringFacts Regex Launcher LinkerName RegexFacts LauncherFacts Worlds.

(** C1 (defect of the code). The launcher lives in [/opt/app/bin], whose
    last component is [bin], and the parent [/opt/app] exists as a directory
    that [realpath] resolves; the specification asks for the install root
    [/opt/app].  [is_file] asks [stat] for a regular file, which a directory
    is not, so the root stays [/opt/app/bin]. *)
Theorem C1_bin_parent_not_taken :
  realpath opt_app_bin "/proc/self/exe" = Done "/opt/app/bin/dynexe" /\
  custom_basename (dirname "/opt/app/bin/dynexe") = "bin" /\
  stat opt_app_bin "/opt/app/bin/../" = Done S_IFDIR /\
  realpath opt_app_bin "/opt/app/bin/../" = Done "/opt/app" /\
  install_root opt_app_bin = ([], inr "/opt/app/bin").
Proof. repeat split; reflexivity. Qed.

(** C2 as stated fails: [ld--.so.1] has two empty runs, so it is not of the
    specified shape, and the test of the program accepts it. *)
Lemma C2_empty_runs_accepted :
  ~ (name_test "ld--.so.1" = true <-> spec_linker_name "ld--.so.1").
Proof.
  intros [Hspec _].
  destruct (Hspec eq_refl) as (t1 & t2 & t3 & Heq & Ht1 & _).
  rewrite !str_app_cons, !str_app_nil_l in Heq. injection Heq as Heq.
  destruct t1 as [|c t1]; [discriminate Ht1|].
  rewrite str_app_cons in Heq. injection Heq as <- Heq.
  destruct t1 as [|c t1].
  - rewrite str_app_nil_l in Heq. discriminate Heq.
  - rewrite str_app_cons in Heq. injection Heq as <- Heq. discriminate Ht1.
Qed.

(** C2 (amended). The name test accepts a filename if and only if it is
    [ld-], any run of characters, [-], any run of characters, [.so.] and
    any run of characters; each run may be empty and may hold any
    character. *)
Theorem C2_name_test_shape (d_name : string) :
  name_test d_name = true <->
  exists a b c : string, d_name = "ld-" +:+ a +:+ "-" +:+ b +:+ ".so." +:+ c.
Proof. apply name_test_glob. Qed.

(** C3. Invoked as [dynexe X args...], the launcher takes [binDir/X] as
    the target and forwards [args]: neither the program name nor [X]. *)
Theorem C3_selector_consumed (argv0 x : string) (rest : list string) :
  custom_basename argv0 = DYNEXE_NAME ->
  (forall binDir : string,
     dispatch binDir (argv0 :: x :: rest) =
       ([], inr (binDir +:+ "/" +:+ x, x :: rest))) /\
  (forall (sys : os) (root linker_name : string) (environ : list string),
     install_root sys = ([], inr root) ->
     match_linker_name sys (root +:+ "/shared/lib") =
       ([], inr (Some linker_name)) ->
     main sys (argv0 :: x :: rest) environ =
       exec_outcome sys ((root +:+ "/shared/lib") +:+ "/" +:+ linker_name)
         ([Ptr ((root +:+ "/shared/lib") +:+ "/" +:+ linker_name);
           Ptr "--library-path";
           Ptr (root +:+ "/shared/lib");
           Ptr ((root +:+ "/shared/bin") +:+ "/" +:+ x)]
            ++ (Ptr <$> rest) ++ [Null])
         environ).
Proof.
  intros Hname. split.
  - intros binDir. apply dispatch_selector, Hname.
  - intros sys root linker_name environ Hroot Hlinker.
    rewrite <- shared_lib_of_eq in *. rewrite <- shared_bin_of_eq.
    rewrite (main_exec sys _ environ _ _ _ _ Hroot
               (dispatch_selector _ _ _ _ Hname) Hlinker).
    cbv zeta. rewrite build_exec_args_eq. reflexivity.
Qed.

Lemma C3_selector_consumed_run :
  custom_basename "/usr/bin/dynexe" = DYNEXE_NAME /\
  main opt_app ["/usr/bin/dynexe"; "mytool"; "--flag"; "val"] ["HOME=/root"] =
    ([Execve "/opt/app/shared/lib/ld-linux-x86-64.so.2"
        [Ptr "/opt/app/shared/lib/ld-linux-x86-64.so.2"; Ptr "--library-path";
         Ptr "/opt/app/shared/lib"; Ptr "/opt/app/shared/bin/mytool";
         Ptr "--flag"; Ptr "val"; Null]
        ["HOME=/root"]],
     Replaced).
Proof.
  split; [reflexivity|].
  apply (proj2 (C3_selector_consumed "/usr/bin/dynexe" "mytool" ["--flag"; "val"]
                  eq_refl) opt_app "/opt/app" "ld-linux-x86-64.so.2");
    reflexivity.
Defined.

(** C4. Invoked with an argument zero whose last path component is a
    name [Y] other than [dynexe] (argument zero is [Y] itself or a
    directory, a slash and [Y]), the launcher takes [binDir/Y] as the target
    and forwards every argument after slot zero, unchanged and in order. *)
Theorem C4_renamed_copy (argv0 y : string) (rest : list string) :
  ~ In "/"%char (list_ascii_of_string y) ->
  (argv0 = y \/ exists dir : string, argv0 = dir +:+ "/" +:+ y) ->
  y <> DYNEXE_NAME ->
  (forall binDir : string,
     dispatch binDir (argv0 :: rest) =
       ([], inr (binDir +:+ "/" +:+ y, argv0 :: rest))) /\
  (forall (sys : os) (root linker_name : string) (environ : list string),
     install_root sys = ([], inr root) ->
     match_linker_name sys (root +:+ "/shared/lib") =
       ([], inr (Some linker_name)) ->
     main sys (argv0 :: rest) environ =
       exec_outcome sys ((root +:+ "/shared/lib") +:+ "/" +:+ linker_name)
         ([Ptr ((root +:+ "/shared/lib") +:+ "/" +:+ linker_name);
           Ptr "--library-path";
           Ptr (root +:+ "/shared/lib");
           Ptr ((root +:+ "/shared/bin") +:+ "/" +:+ y)]
            ++ (Ptr <$> rest) ++ [Null])
         environ).
Proof.
  intros Hslash Hlast Hname.
  assert (Hbase : custom_basename argv0 = y).
  { destruct Hlast as [->|(dir & ->)].
    - apply BasenameFacts.custom_basename_plain, Hslash.
    - apply BasenameFacts.custom_basename_join, Hslash. }
  assert (Hne : custom_basename argv0 <> DYNEXE_NAME)
    by (rewrite Hbase; exact Hname).
  split.
  - intros binDir. rewrite (dispatch_rename _ _ _ Hne), Hbase. reflexivity.
  - intros sys root linker_name environ Hroot Hlinker.
    rewrite <- shared_lib_of_eq in *. rewrite <- shared_bin_of_eq.
    rewrite (main_exec sys _ environ _ _ _ _ Hroot
               (dispatch_rename _ _ _ Hne) Hlinker).
    cbv zeta. rewrite build_exec_args_eq, Hbase. reflexivity.
Qed.

Lemma C4_renamed_copy_run :
  ("/usr/local/bin/mytool" = "mytool" \/
   exists dir : string, "/usr/local/bin/mytool" = dir +:+ "/" +:+ "mytool") /\
  main opt_app ["/usr/local/bin/mytool"; "-v"; "in.txt"] ["HOME=/root"] =
    ([Execve "/opt/app/shared/lib/ld-linux-x86-64.so.2"
        [Ptr "/opt/app/shared/lib/ld-linux-x86-64.so.2"; Ptr "--library-path";
         Ptr "/opt/app/shared/lib"; Ptr "/opt/app/shared/bin/mytool";
         Ptr "-v"; Ptr "in.txt"; Null]
        ["HOME=/root"]],
     Replaced).
Proof.
  assert (Hlast : "/usr/local/bin/mytool" = "mytool" \/
                  exists dir : string,
                    "/usr/local/bin/mytool" = dir +:+ "/" +:+ "mytool")
    by (right; exists "/usr/local/bin"; reflexivity).
  split; [exact Hlast|].
  refine (proj2 (C4_renamed_copy "/usr/local/bin/mytool" "mytool"
                   ["-v"; "in.txt"] _ Hlast _)
            opt_app "/opt/app" "ld-linux-x86-64.so.2" ["HOME=/root"]
            eq_refl eq_refl).
  - vm_compute. intros H.
    repeat (destruct H as [H|H]; [discriminate H|]). exact H.
  - vm_compute. discriminate.
Defined.

(** C5. Whenever [main] calls [execve], the argument array is the
    interpreter path, [--library-path], the library directory, the target
    path and the forwarded arguments in their order, followed by NULL: its
    length without the NULL is the adjusted [argc] plus 3. *)
Theorem C5_exec_args_layout (sys : os) (argv environ : list string)
    (path : string) (args : list cell) (envp : list string) :
  In (Execve path args envp) (fst (main sys argv environ)) ->
  exists (root bin_name argv0 linker_name : string) (rest : list string),
    install_root sys = ([], inr root) /\
    dispatch (root +:+ "/shared/bin") argv =
      ([], inr ((root +:+ "/shared/bin") +:+ "/" +:+ bin_name, argv0 :: rest)) /\
    match_linker_name sys (root +:+ "/shared/lib") =
      ([], inr (Some linker_name)) /\
    path = (root +:+ "/shared/lib") +:+ "/" +:+ linker_name /\
    args = [Ptr path; Ptr "--library-path"; Ptr (root +:+ "/shared/lib");
            Ptr ((root +:+ "/shared/bin") +:+ "/" +:+ bin_name)]
             ++ (Ptr <$> rest) ++ [Null] /\
    length args = (length (argv0 :: rest) + 3) + 1 /\
    last args = Some Null.
Proof.
  intros Hin.
  destruct (main_exec_inv sys _ _ _ _ _ Hin)
    as (root & bin_name & argv0 & rest & linker_name
        & Hroot & Hbin & Hlinker & Hpath & Hargs & _).
  rewrite build_exec_args_eq in Hargs.
  rewrite shared_lib_of_eq in *. rewrite shared_bin_of_eq in *.
  exists root, bin_name, argv0, linker_name, rest.
  repeat (split; [assumption|]). subst args. split.
  - cbn [length app]. rewrite List.length_app, length_fmap. simpl. lia.
  - rewrite (app_assoc _ _ [Null]). apply last_snoc.
Qed.

Lemma C5_exec_args_layout_run :
  exists (root bin_name argv0 linker_name : string) (rest : list string),
    install_root opt_app = ([], inr root) /\
    dispatch (root +:+ "/shared/bin") ["dynexe"; "mytool"; "--flag"; "val"] =
      ([], inr ((root +:+ "/shared/bin") +:+ "/" +:+ bin_name, argv0 :: rest)) /\
    match_linker_name opt_app (root +:+ "/shared/lib") =
      ([], inr (Some linker_name)) /\
    "/opt/app/shared/lib/ld-linux-x86-64.so.2" =
      (root +:+ "/shared/lib") +:+ "/" +:+ linker_name /\
    [Ptr "/opt/app/shared/lib/ld-linux-x86-64.so.2"; Ptr "--library-path";
     Ptr "/opt/app/shared/lib"; Ptr "/opt/app/shared/bin/mytool";
     Ptr "--flag"; Ptr "val"; Null] =
      [Ptr "/opt/app/shared/lib/ld-linux-x86-64.so.2"; Ptr "--library-path";
       Ptr (root +:+ "/shared/lib");
       Ptr ((root +:+ "/shared/bin") +:+ "/" +:+ bin_name)]
        ++ (Ptr <$> rest) ++ [Null] /\
    7 = (length (argv0 :: rest) + 3) + 1 /\
    last [Ptr "/opt/app/shared/lib/ld-linux-x86-64.so.2"; Ptr "--library-path";
          Ptr "/opt/app/shared/lib"; Ptr "/opt/app/shared/bin/mytool";
          Ptr "--flag"; Ptr "val"; Null] = Some Null.
Proof.
  apply (C5_exec_args_layout opt_app ["dynexe"; "mytool"; "--flag"; "val"]
           ["HOME=/root"] "/opt/app/shared/lib/ld-linux-x86-64.so.2"
           [Ptr "/opt/app/shared/lib/ld-linux-x86-64.so.2"; Ptr "--library-path";
            Ptr "/opt/app/shared/lib"; Ptr "/opt/app/shared/bin/mytool";
            Ptr "--flag"; Ptr "val"; Null]
           ["HOME=/root"]).
  vm_compute. left. reflexivity.
Defined.

(** C6 (defect of the code). Under an installation root of 1000
    characters the library directory holds one entry, a regular file whose
    name passes the test; the path built for [stat] is cut at 1023
    characters, [stat] fails on it, and the locator returns NULL instead of
    the filename. *)
Theorem C6_long_path_misses_linker :
  install_root deep = ([], inr deep_root) /\
  shared_lib_of deep_root = deep_lib /\
  opendir deep deep_lib = Done ["ld-linux-x86-64.so.2"] /\
  interpreter_candidate deep deep_lib "ld-linux-x86-64.so.2" = true /\
  match_linker_name deep deep_lib = ([], inr None).
Proof. repeat split; vm_compute; reflexivity. Qed.

(** C7. The layout is the install root followed by [/shared/bin] and
    [/shared/lib]; with the root [/opt/app], the single interpreter
    [ld-linux-x86-64.so.2] in the library directory and the invocation
    [dynexe mytool --flag val], [main] calls [execve] with the argument
    vector of the scenario. *)
Theorem C7_end_to_end (sys : os) (entries environ : list string) :
  install_root sys = ([], inr "/opt/app") ->
  opendir sys "/opt/app/shared/lib" = Done entries ->
  Forall (fun d_name => String.length d_name < 256) entries ->
  List.filter (interpreter_candidate sys "/opt/app/shared/lib") entries =
    ["ld-linux-x86-64.so.2"] ->
  (forall root : string,
     shared_bin_of root = root +:+ "/shared/bin" /\
     shared_lib_of root = root +:+ "/shared/lib") /\
  main sys ["dynexe"; "mytool"; "--flag"; "val"] environ =
    exec_outcome sys "/opt/app/shared/lib/ld-linux-x86-64.so.2"
      [Ptr "/opt/app/shared/lib/ld-linux-x86-64.so.2"; Ptr "--library-path";
       Ptr "/opt/app/shared/lib"; Ptr "/opt/app/shared/bin/mytool";
       Ptr "--flag"; Ptr "val"; Null]
      environ.
Proof.
  intros Hroot Hdir Hnames Hone. split.
  - intros root. split; [apply shared_bin_of_eq|apply shared_lib_of_eq].
  - assert (Hfit : Forall (fits "/opt/app/shared/lib") entries).
    { eapply Forall_impl; [exact Hnames|]. intros d Hd. cbv beta in Hd. split; [simpl; lia|exact Hd]. }
    assert (Hlinker : match_linker_name sys (shared_lib_of "/opt/app") =
                        ([], inr (Some "ld-linux-x86-64.so.2")))
      by exact (match_linker_name_single sys _ _ _ Hdir Hfit Hone).
    rewrite (main_exec sys _ environ _ _ _ _ Hroot
               (dispatch_selector _ "dynexe" _ _ eq_refl) Hlinker).
    cbv zeta. rewrite build_exec_args_eq. reflexivity.
Qed.

Lemma C7_end_to_end_run :
  main opt_app ["dynexe"; "mytool"; "--flag"; "val"] ["HOME=/root"] =
    exec_outcome opt_app "/opt/app/shared/lib/ld-linux-x86-64.so.2"
      [Ptr "/opt/app/shared/lib/ld-linux-x86-64.so.2"; Ptr "--library-path";
       Ptr "/opt/app/shared/lib"; Ptr "/opt/app/shared/bin/mytool";
       Ptr "--flag"; Ptr "val"; Null]
      ["HOME=/root"].
Proof.
  apply (C7_end_to_end opt_app
           ["."; ".."; "libc.so.6"; "ld-linux-x86-64.so.2"] ["HOME=/root"]).
  - reflexivity.
  - reflexivity.
  - repeat constructor; simpl; lia.
  - reflexivity.
Defined.

(** C8 (defect of the code). Under an installation root of 1002
    characters the library directory holds the regular file [ld-a-b.so],
    whose name fails the test, and the directory [ld-a-b.so.x]: no entry is
    a regular file with a matching name.  The path built for the second
    entry is cut to that of the first, [stat] reports a regular file, and
    [main] calls [execve] on the directory instead of reporting that no
    linker was found. *)
Theorem C8_long_path_runs_directory :
  install_root deeper = ([], inr deeper_root) /\
  shared_lib_of deeper_root = deeper_lib /\
  opendir deeper deeper_lib = Done ["ld-a-b.so"; "ld-a-b.so.x"] /\
  interpreter_candidate deeper deeper_lib "ld-a-b.so" = false /\
  interpreter_candidate deeper deeper_lib "ld-a-b.so.x" = false /\
  exists args : list cell,
    main deeper ["dynexe"; "tool"] [] =
      ([Execve (deeper_lib +:+ "/ld-a-b.so.x") args [];
        Stderr ("Failed to execute " +:+ deeper_lib +:+ "/ld-a-b.so.x"
                +:+ ": Permission denied" +:+ nl)],
       Exit EXIT_FAILURE).
Proof.
  repeat split; try (vm_compute; reflexivity).
  eexists. vm_compute. reflexivity.
Qed.

(** C9. The environment that [execve] receives is the one the launcher
    was started with, unchanged, and the launcher does not look at it:
    started with any other environment its whole run is the same call of
    [execve], with the same path and the same arguments, on that
    environment, and what follows from that call; it writes nothing and
    decides nothing from the environment. *)
Theorem C9_environment_passed_through (sys : os) (argv environ : list string)
    (path : string) (args : list cell) (envp : list string) :
  In (Execve path args envp) (fst (main sys argv environ)) ->
  envp = environ /\
  forall other : list string,
    main sys argv other = exec_outcome sys path args other.
Proof.
  intros Hin.
  destruct (main_exec_inv sys _ _ _ _ _ Hin)
    as (root & bin_name & argv0 & rest & linker_name
        & Hroot & Hbin & Hlinker & Hpath & Hargs & Henv).
  split; [exact Henv|]. intros other.
  rewrite (main_exec sys _ other _ _ _ _ Hroot Hbin Hlinker).
  cbv zeta. rewrite <- Hpath, <- Hargs. reflexivity.
Qed.

Lemma C9_environment_passed_through_run :
  ["HOME=/root"; "LD_LIBRARY_PATH=/lib"] = ["HOME=/root"; "LD_LIBRARY_PATH=/lib"] /\
  forall other : list string,
    main opt_app ["dynexe"; "mytool"] other =
      exec_outcome opt_app "/opt/app/shared/lib/ld-linux-x86-64.so.2"
        [Ptr "/opt/app/shared/lib/ld-linux-x86-64.so.2"; Ptr "--library-path";
         Ptr "/opt/app/shared/lib"; Ptr "/opt/app/shared/bin/mytool"; Null]
        other.
Proof.
  apply (C9_environment_passed_through opt_app ["dynexe"; "mytool"]
           ["HOME=/root"; "LD_LIBRARY_PATH=/lib"]).
  vm_compute. left. reflexivity.
Defined.

(** C10. Invoked as [dynexe] with no further argument, the launcher takes
    [binDir/dynexe] as the target, and the first thing it does once the
    linker is found is the call of [execve], with no forwarded argument. *)
Theorem C10_dynexe_alone (argv0 : string) :
  custom_basename argv0 = DYNEXE_NAME ->
  (forall binDir : string,
     dispatch binDir [argv0] = ([], inr (binDir +:+ "/" +:+ "dynexe", [argv0]))) /\
  (forall (sys : os) (root linker_name : string) (environ : list string),
     install_root sys = ([], inr root) ->
     match_linker_name sys (root +:+ "/shared/lib") =
       ([], inr (Some linker_name)) ->
     main sys [argv0] environ =
       exec_outcome sys ((root +:+ "/shared/lib") +:+ "/" +:+ linker_name)
         [Ptr ((root +:+ "/shared/lib") +:+ "/" +:+ linker_name);
          Ptr "--library-path";
          Ptr (root +:+ "/shared/lib");
          Ptr ((root +:+ "/shared/bin") +:+ "/" +:+ "dynexe");
          Null]
         environ /\
     head (fst (main sys [argv0] environ)) =
       Some (Execve ((root +:+ "/shared/lib") +:+ "/" +:+ linker_name)
               [Ptr ((root +:+ "/shared/lib") +:+ "/" +:+ linker_name);
                Ptr "--library-path";
                Ptr (root +:+ "/shared/lib");
                Ptr ((root +:+ "/shared/bin") +:+ "/" +:+ "dynexe");
                Null]
               environ)).
Proof.
  intros Hname. split.
  - intros binDir. apply dispatch_alone, Hname.
  - intros sys root linker_name environ Hroot Hlinker.
    rewrite <- shared_lib_of_eq in *. rewrite <- shared_bin_of_eq.
    rewrite (main_exec sys _ environ _ _ _ _ Hroot
               (dispatch_alone _ _ Hname) Hlinker).
    cbv zeta. rewrite build_exec_args_eq. split; [reflexivity|].
    unfold exec_outcome. destruct (execve sys _ _ _); reflexivity.
Qed.

Lemma C10_dynexe_alone_run :
  custom_basename "./dynexe" = DYNEXE_NAME /\
  main opt_app ["./dynexe"] ["HOME=/root"] =
    ([Execve "/opt/app/shared/lib/ld-linux-x86-64.so.2"
        [Ptr "/opt/app/shared/lib/ld-linux-x86-64.so.2"; Ptr "--library-path";
         Ptr "/opt/app/shared/lib"; Ptr "/opt/app/shared/bin/dynexe"; Null]
        ["HOME=/root"]],
     Replaced).
Proof.
  split; [reflexivity|].
  apply (proj2 (C10_dynexe_alone "./dynexe" eq_refl)
           opt_app "/opt/app" "ld-linux-x86-64.so.2" ["HOME=/root"]);
    reflexivity.
Defined.


(** * Further properties of the launcher *)

(** ** The properties *)

Import BasenameFacts RunFacts.

(** X1. The name that [custom_basename] returns never holds a slash. *)
Theorem X1_basename_has_no_slash (path : string) :
  ~ In "/"%char (list_ascii_of_string (custom_basename path)).
Proof. apply custom_basename_slash_free. Qed.

(** X2. A name without a slash is its own last component, and it is the
    last component of every path made of a directory, a slash and the
    name. *)
Theorem X2_basename_of_joined_path (dir name : string) :
  ~ In "/"%char (list_ascii_of_string name) ->
  custom_basename name = name /\
  custom_basename (dir +:+ "/" +:+ name) = name.
Proof.
  intros Hn. split; [apply custom_basename_plain|apply custom_basename_join];
    exact Hn.
Qed.

Lemma X2_basename_of_joined_path_run :
  custom_basename "mytool" = "mytool" /\
  custom_basename ("/opt/app/shared/bin" +:+ "/" +:+ "mytool") = "mytool".
Proof.
  apply (X2_basename_of_joined_path "/opt/app/shared/bin" "mytool").
  vm_compute. intros H. repeat (destruct H as [H|H]; [discriminate H|]). exact H.
Defined.

(** X3. A path that ends in a slash has the empty last component:
    [custom_basename] does not skip trailing slashes. *)
Theorem X3_basename_trailing_slash (path : string) :
  custom_basename (path +:+ "/") = EmptyString.
Proof.
  unfold custom_basename.
  rewrite (strrchr_after_prefix path EmptyString "/"%char (fun H => H)).
  reflexivity.
Qed.

(** X4. Invoked under a name other than [dynexe], the launcher chooses a
    target whose last component is the last component of [argv[0]]. *)
Theorem X4_target_keeps_invocation_name (binDir argv0 : string)
    (rest : list string) :
  custom_basename argv0 <> DYNEXE_NAME ->
  exists bin : string,
    dispatch binDir (argv0 :: rest) = ([], inr (bin, argv0 :: rest)) /\
    custom_basename bin = custom_basename argv0.
Proof.
  intros Hname. eexists. split; [apply dispatch_rename, Hname|].
  apply custom_basename_join, custom_basename_slash_free.
Qed.

Lemma X4_target_keeps_invocation_name_run :
  exists bin : string,
    dispatch "/opt/app/shared/bin" ["../links/mytool"; "-v"] =
      ([], inr (bin, ["../links/mytool"; "-v"])) /\
    custom_basename bin = custom_basename "../links/mytool".
Proof.
  apply (X4_target_keeps_invocation_name "/opt/app/shared/bin"
           "../links/mytool" ["-v"]).
  vm_compute. discriminate.
Defined.

(** X5. When the path of the running executable cannot be resolved,
    [main] writes [realpath: ] and the text of the error to standard error
    and exits with status 1, whatever its arguments are; nothing else
    happens. *)
Theorem X5_self_resolution_failure (sys : os) (argv environ : list string)
    (e : errno) :
  realpath sys "/proc/self/exe" = Fail e ->
  main sys argv environ =
    ([Stderr ("realpath: " +:+ strerror sys e +:+ nl)], Exit 1).
Proof.
  intros H. apply main_root_fails. apply (install_root_realpath_fails sys e H).
Qed.

Lemma X5_self_resolution_failure_run :
  main (table_os [] [] [] []) ["dynexe"; "mytool"] [] =
    ([Stderr ("realpath: " +:+ "No such file or directory" +:+ nl)], Exit 1).
Proof.
  apply (X5_self_resolution_failure (table_os [] [] [] []) ["dynexe"; "mytool"]
           [] ENOENT).
  reflexivity.
Defined.

(** X6. When the library directory cannot be opened, [main] writes
    [opendir: ] and the text of the error to standard error and exits with
    status 1 without calling [execve]. *)
Theorem X6_library_directory_unreadable (sys : os) (root argv0 : string)
    (rest environ : list string) (e : errno) :
  install_root sys = ([], inr root) ->
  opendir sys (root +:+ "/shared/lib") = Fail e ->
  main sys (argv0 :: rest) environ =
    ([Stderr ("opendir: " +:+ strerror sys e +:+ nl)], Exit 1).
Proof.
  intros Hroot Hdir. rewrite <- shared_lib_of_eq in Hdir.
  destruct (dispatch_cases (shared_bin_of root) (argv0 :: rest))
    as [[Hnil _]|(bin_name & a & r & Hbin)]; [discriminate|].
  apply (main_search_fails sys _ _ _ _ _ _ _ Hroot Hbin).
  rewrite match_linker_name_eq, Hdir. reflexivity.
Qed.

Lemma X6_library_directory_unreadable_run :
  main opt_app_bin ["dynexe"; "mytool"] [] =
    ([Stderr ("opendir: " +:+ "No such file or directory" +:+ nl)], Exit 1).
Proof.
  apply (X6_library_directory_unreadable opt_app_bin "/opt/app/bin" "dynexe"
           ["mytool"] [] ENOENT); reflexivity.
Defined.

(** X7. Every run of [main] has one of four shapes: it reads [argv[0]]
    of an empty argument vector; it writes one diagnostic and exits with
    status 1; it calls [execve] once and is replaced; or it calls [execve]
    once, which fails, writes [Failed to execute], the path and the text of
    the error, and exits with status 1.  It never exits with status 0 and
    never calls [execve] after a diagnostic. *)
Theorem X7_runs_of_main (sys : os) (argv environ : list string) :
  (argv = [] /\ main sys argv environ = ([], Undefined)) \/
  (exists msg : string, main sys argv environ = ([Stderr msg], Exit 1)) \/
  (exists (path : string) (args : list cell),
     execve sys path args environ = None /\
     main sys argv environ = ([Execve path args environ], Replaced)) \/
  (exists (path : string) (args : list cell) (e : errno),
     execve sys path args environ = Some e /\
     main sys argv environ =
       ([Execve path args environ;
         Stderr ("Failed to execute " +:+ path +:+ ": " +:+ strerror sys e +:+ nl)],
        Exit 1)).
Proof.
  destruct (install_root_cases sys) as [(root & Hroot)|(msg & Hroot)].
  2:{ right; left. exists msg. apply main_root_fails, Hroot. }
  destruct (dispatch_cases (shared_bin_of root) argv)
    as [(-> & _)|(bin_name & argv0 & rest & Hbin)].
  { left. split; [reflexivity|]. apply (main_no_argv sys _ _ Hroot). }
  destruct (match_linker_name_cases sys (shared_lib_of root))
    as [(entries & _ & Hlinker)|(msg & Hlinker)].
  2:{ right; left. exists msg.
      apply (main_search_fails sys _ _ _ _ _ _ _ Hroot Hbin Hlinker). }
  destruct (readdir_loop sys linker_regex (shared_lib_of root) entries)
    as [linker_name|].
  - rewrite (main_exec sys _ environ _ _ _ _ Hroot Hbin Hlinker).
    cbv zeta. unfold exec_outcome.
    destruct (execve sys _ _ environ) as [e|] eqn:Eexec.
    + right; right; right. do 3 eexists. split; [exact Eexec|reflexivity].
    + right; right; left. do 2 eexists. split; [exact Eexec|reflexivity].
  - right; left. eexists.
    apply (main_no_linker sys _ environ _ _ _ Hroot Hbin Hlinker).
Qed.

(** X8. With an empty argument vector ([argc] = 0) and a resolvable
    executable path, [main] reads through the NULL pointer [argv[0]] before
    it opens the library directory: no diagnostic, no [execve]. *)
Theorem X8_empty_argument_vector (sys : os) (environ : list string)
    (exe : string) :
  realpath sys "/proc/self/exe" = Done exe ->
  custom_basename (dirname exe) <> "bin" ->
  main sys [] environ = ([], Undefined).
Proof.
  intros Hexe Hbin.
  apply (main_no_argv sys environ _ (install_root_not_bin sys exe Hexe Hbin)).
Qed.

Lemma X8_empty_argument_vector_run :
  main opt_app [] ["HOME=/root"] = ([], Undefined).
Proof.
  apply (X8_empty_argument_vector opt_app ["HOME=/root"] "/opt/app/dynexe").
  - reflexivity.
  - vm_compute. discriminate.
Defined.


(** X9. Whatever the lengths of the paths, a name that the locator
    returns comes from an entry of the listing whose name passes the test
    and for whose built path [stat] reported a regular file; it is that
    name as [linker_name[256]] holds it. *)
Theorem X9_locator_result_is_tested_entry (sys : os)
    (shared_lib linker_name : string) :
  match_linker_name sys shared_lib = ([], inr (Some linker_name)) ->
  exists (entries : list string) (d_name : string),
    opendir sys shared_lib = Done entries /\
    In d_name entries /\
    linker_name = snprintf 256 d_name /\
    name_test d_name = true /\
    stat sys (snprintf 1024 (shared_lib +:+ "/" +:+ d_name)) = Done S_IFREG.
Proof.
  rewrite match_linker_name_eq.
  destruct (opendir sys shared_lib) as [e|entries]; [discriminate|].
  intros H. injection H as H.
  destruct (readdir_loop_some sys _ _ _ H) as (d & Hd).
  exists entries, d. split; [reflexivity|exact Hd].
Qed.

Lemma X9_locator_result_is_tested_entry_run :
  exists (entries : list string) (d_name : string),
    opendir opt_app "/opt/app/shared/lib" = Done entries /\
    In d_name entries /\
    "ld-linux-x86-64.so.2" = snprintf 256 d_name /\
    name_test d_name = true /\
    stat opt_app (snprintf 1024 ("/opt/app/shared/lib" +:+ "/" +:+ d_name)) =
      Done S_IFREG.
Proof.
  apply (X9_locator_result_is_tested_entry opt_app "/opt/app/shared/lib"
           "ld-linux-x86-64.so.2").
  reflexivity.
Defined.

(** X10. When the path of every entry fits the buffer of 1024 bytes and
    every name the buffer of 256 bytes, the locator returns the first entry
    of the listing that is a regular file with a name passing the test, and
    NULL when there is none. *)
Theorem X10_locator_first_candidate (sys : os) (shared_lib : string)
    (entries : list string) :
  opendir sys shared_lib = Done entries ->
  Forall (fits shared_lib) entries ->
  match_linker_name sys shared_lib =
    ([], inr (head (List.filter (interpreter_candidate sys shared_lib) entries))).
Proof. apply match_linker_name_first. Qed.

Lemma X10_locator_first_candidate_run :
  match_linker_name opt_app "/opt/app/shared/lib" =
    ([], inr (head (List.filter (interpreter_candidate opt_app "/opt/app/shared/lib")
                      ["."; ".."; "libc.so.6"; "ld-linux-x86-64.so.2"]))).
Proof.
  apply (X10_locator_first_candidate opt_app "/opt/app/shared/lib"
           ["."; ".."; "libc.so.6"; "ld-linux-x86-64.so.2"]).
  - reflexivity.
  - repeat constructor; simpl; lia.
Defined.

(** X11. When the paths fit the buffers and no entry of the library
    directory is a regular file with a name passing the test, [main] writes
    [No valid linker found in ] and the library directory to standard
    error and exits with status 1 without calling [execve]. *)
Theorem X11_no_candidate_diagnostic (sys : os) (root argv0 : string)
    (rest environ entries : list string) :
  install_root sys = ([], inr root) ->
  opendir sys (root +:+ "/shared/lib") = Done entries ->
  Forall (fits (root +:+ "/shared/lib")) entries ->
  Forall (fun d_name =>
            interpreter_candidate sys (root +:+ "/shared/lib") d_name = false)
    entries ->
  main sys (argv0 :: rest) environ =
    ([Stderr ("No valid linker found in " +:+ (root +:+ "/shared/lib") +:+ nl)],
     Exit 1).
Proof.
  rewrite <- shared_lib_of_eq. apply main_no_candidate.
Qed.

Lemma X11_no_candidate_diagnostic_run :
  main (table_os [("/proc/self/exe", "/opt/app/dynexe")]
          [("/opt/app/shared/lib/libc.so.6", S_IFREG);
           ("/opt/app/shared/lib/ld-linux-x86-64.so.2", S_IFDIR)]
          [("/opt/app/shared/lib", ["libc.so.6"; "ld-linux-x86-64.so.2"])] [])
       ["dynexe"; "mytool"] [] =
    ([Stderr ("No valid linker found in " +:+ ("/opt/app" +:+ "/shared/lib") +:+ nl)],
     Exit 1).
Proof.
  apply (X11_no_candidate_diagnostic _ "/opt/app" "dynexe" ["mytool"] []
           ["libc.so.6"; "ld-linux-x86-64.so.2"]).
  - reflexivity.
  - reflexivity.
  - repeat constructor; simpl; lia.
  - repeat constructor.
Defined.

(** X12. When the directory of the executable is not named [bin], the
    install root is that directory, whatever the file system holds. *)
Theorem X12_root_is_directory_of_executable (sys : os) (exe : string) :
  realpath sys "/proc/self/exe" = Done exe ->
  custom_basename (dirname exe) <> "bin" ->
  install_root sys = ([], inr (dirname exe)).
Proof. apply install_root_not_bin. Qed.

Lemma X12_root_is_directory_of_executable_run :
  install_root opt_app = ([], inr (dirname "/opt/app/dynexe")).
Proof.
  apply (X12_root_is_directory_of_executable opt_app "/opt/app/dynexe").
  - reflexivity.
  - vm_compute. discriminate.
Defined.

(** X13. The install root is the directory of the executable unless that
    directory is named [bin], [stat] reports a regular file for the path
    built from it and [/../], and [realpath] resolves that path: then it is
    the resolved path. *)
Theorem X13_when_the_parent_is_taken (sys : os) (exe root : string) :
  realpath sys "/proc/self/exe" = Done exe ->
  install_root sys = ([], inr root) ->
  root = dirname exe \/
  (custom_basename (dirname exe) = "bin" /\
   stat sys (snprintf 512 (dirname exe +:+ "/../")) = Done S_IFREG /\
   realpath sys (snprintf 512 (dirname exe +:+ "/../")) = Done root).
Proof.
  intros Hexe Hroot.
  destruct (streq (custom_basename (dirname exe)) "bin") eqn:Ebin.
  2:{ left. apply streq_false in Ebin.
      rewrite (install_root_not_bin sys exe Hexe Ebin) in Hroot.
      injection Hroot as <-. reflexivity. }
  destruct (is_file sys (snprintf 512 (dirname exe +:+ "/../"))) eqn:Efile.
  2:{ left. rewrite (install_root_stays sys exe Hexe Efile) in Hroot.
      injection Hroot as <-. reflexivity. }
  right. apply streq_true in Ebin. split; [exact Ebin|].
  unfold is_file in Efile.
  destruct (stat sys _) as [e|[]] eqn:Est; try discriminate Efile.
  split; [reflexivity|].
  assert (Hself : realpath_alloc sys "/proc/self/exe" = ([], inr exe))
    by (unfold realpath_alloc; rewrite Hexe; reflexivity).
  unfold install_root in Hroot. rewrite Hself, bind_ret in Hroot.
  cbv beta zeta in Hroot. apply streq_true in Ebin. rewrite Ebin in Hroot.
  unfold is_file in Hroot. rewrite Est in Hroot. simpl in Hroot.
  unfold realpath_alloc in Hroot.
  destruct (realpath sys (snprintf 512 (dirname exe +:+ "/../"))) as [e|p];
    [cbn in Hroot; discriminate Hroot|].
  injection Hroot as <-. reflexivity.
Qed.

Lemma X13_when_the_parent_is_taken_run :
  custom_basename (dirname "/x/bin/dynexe") = "bin" /\
  stat (table_os [("/proc/self/exe", "/x/bin/dynexe"); ("/x/bin/../", "/x")]
          [("/x/bin/../", S_IFREG)] [] [])
       (snprintf 512 (dirname "/x/bin/dynexe" +:+ "/../")) = Done S_IFREG /\
  realpath (table_os [("/proc/self/exe", "/x/bin/dynexe"); ("/x/bin/../", "/x")]
              [("/x/bin/../", S_IFREG)] [] [])
           (snprintf 512 (dirname "/x/bin/dynexe" +:+ "/../")) = Done "/x".
Proof.
  destruct (X13_when_the_parent_is_taken
              (table_os [("/proc/self/exe", "/x/bin/dynexe"); ("/x/bin/../", "/x")]
                 [("/x/bin/../", S_IFREG)] [] [])
              "/x/bin/dynexe" "/x" eq_refl eq_refl) as [Hsame|Htaken].
  - vm_compute in Hsame. discriminate Hsame.
  - exact Htaken.
Defined.

(** X14. The name test looks at a prefix only: a name that passes still
    passes with anything appended to it. *)
Theorem X14_name_test_ignores_suffix (d_name suffix : string) :
  name_test d_name = true -> name_test (d_name +:+ suffix) = true.
Proof.
  intros H. apply name_test_glob in H as (a & b & c & ->).
  apply name_test_glob. exists a, b, (c +:+ suffix).
  rewrite !str_app_assoc. reflexivity.
Qed.

Lemma X14_name_test_ignores_suffix_run :
  name_test ("ld-linux-x86-64.so.2" +:+ ".bak") = true.
Proof.
  apply (X14_name_test_ignores_suffix "ld-linux-x86-64.so.2" ".bak").
  reflexivity.
Defined.

(** X15. A name that passes the test starts with [ld-] and has at least
    eight characters. *)
Theorem X15_accepted_names_start_with_ld (d_name : string) :
  name_test d_name = true ->
  (exists rest : string, d_name = "ld-" +:+ rest) /\ 8 <= String.length d_name.
Proof.
  intros H. apply name_test_glob in H as (a & b & c & ->). split.
  - eexists. reflexivity.
  - rewrite !str_length_app. simpl. lia.
Qed.

Lemma X15_accepted_names_start_with_ld_run :
  (exists rest : string, "ld-musl-x86_64.so.1" = "ld-" +:+ rest) /\
  8 <= String.length "ld-musl-x86_64.so.1".
Proof.
  apply (X15_accepted_names_start_with_ld "ld-musl-x86_64.so.1"). reflexivity.
Defined.

(** X16. Every filename of the shape the specification gives ([ld-], a
    non-empty run without [.] and [/], [-], another such run, [.so.] and a
    trailing run) passes the name test of the program. *)
Theorem X16_specified_names_are_accepted (d_name : string) :
  spec_linker_name d_name -> name_test d_name = true.
Proof. apply spec_linker_name_accepted. Qed.

Lemma X16_specified_names_are_accepted_run :
  name_test "ld-linux-x86-64.so.2" = true.
Proof.
  apply (X16_specified_names_are_accepted "ld-linux-x86-64.so.2").
  exists "linux", "x86-64", "2". repeat split; reflexivity.
Defined.

(** X17. The two ways of invoking the launcher agree: [dynexe X args...]
    runs exactly as a copy of the launcher named [X] runs with [args...],
    when [X] holds no slash and is not [dynexe] itself. *)
Theorem X17_selector_equals_renamed_copy (sys : os) (argv0 x : string)
    (rest environ : list string) :
  custom_basename argv0 = DYNEXE_NAME ->
  ~ In "/"%char (list_ascii_of_string x) ->
  x <> DYNEXE_NAME ->
  main sys (argv0 :: x :: rest) environ = main sys (x :: rest) environ.
Proof.
  intros Hname Hslash Hx. apply main_dispatch_congr. intros shared_bin.
  rewrite (dispatch_selector _ _ _ _ Hname).
  assert (Hbase : custom_basename x = x) by (apply custom_basename_plain, Hslash).
  rewrite dispatch_rename by (rewrite Hbase; exact Hx).
  rewrite Hbase. reflexivity.
Qed.

Lemma X17_selector_equals_renamed_copy_run :
  main opt_app ["/usr/bin/dynexe"; "mytool"; "--flag"] ["HOME=/root"] =
  main opt_app ["mytool"; "--flag"] ["HOME=/root"].
Proof.
  apply (X17_selector_equals_renamed_copy opt_app "/usr/bin/dynexe" "mytool"
           ["--flag"] ["HOME=/root"]).
  - reflexivity.
  - vm_compute. intros H. repeat (destruct H as [H|H]; [discriminate H|]). exact H.
  - vm_compute. discriminate.
Defined.
